(** * EnergyFlow example scripts: a trace model and its properties

    The four scripts under [examples/] ([dnn_example.py], [efp_example.py],
    [test_cnn.py], [test_efp.py]) are sequential glue code over the
    EnergyFlow, scikit-learn and matplotlib libraries.  Each script is
    embedded here as a program in a small writer-and-exception monad: the
    program emits one event per statement that calls a library or prints,
    and it may stop with a Python exception raised by list indexing.

    The libraries are not part of the repository.  They are a record of
    operations ([Lib]) every definition and theorem is parametric in; the
    array operations the scripts perform themselves (boolean masking, column
    slicing, [1 - fpr], negation) are written out on lists. *)

From Stdlib Require Import List String Ascii ZArith QArith Bool Arith Lia.
From Stdlib Require Import DecimalString.
Import ListNotations.
Open Scope string_scope.
Open Scope list_scope.

Set Implicit Arguments.

(* ================================================================= *)
(** ** Arrays *)

(** A particle is one row of a jet array; its first column ([x[:,0]]) is
    the transverse momentum, the remaining columns are kept as they are. *)
Record particle (num : Type) : Type := Particle {
  pt : num;
  coords : list num
}.

(** The optional dependencies a script tries to import. *)
Record environment : Type := Env {
  has_sklearn : bool;
  has_matplotlib : bool
}.

(** The hyper-parameter dictionary [hps] of [test_cnn.py]. *)
Record cnn_hps : Type := Hps {
  hp_input_shape : nat * nat * nat;
  hp_filter_sizes : list Z;
  hp_num_filters : list Z;
  hp_dense_sizes : list Z;
  hp_pool_sizes : Z
}.

(** The operations of the external libraries.  A library call is a function
    of its arguments; calls are assumed to return. *)
Record Lib : Type := {
  num : Type;
  image : Type;
  p4 : Type;
  efpset : Type;
  colsel : Type;
  dnn : Type;
  cnn : Type;
  linclass : Type;

  (* numpy scalar operations, applied element-wise by the scripts *)
  one_minus : num -> num;              (* 1 - v *)
  negate : num -> num;                 (* -v *)
  gt_zero : num -> bool;               (* v > 0 *)
  nonzero : num -> bool;               (* v != 0 *)
  of_count : nat -> num;               (* an integer count as an array entry *)
  column : nat -> list (list num) -> list num;              (* a[:,k] *)
  select_cols : list (list num) -> colsel -> list (list num); (* a[:,sel] *)

  (* energyflow.datasets and the cepc module *)
  qg_nsubs_load : Z -> list (list num) * list num;
  qg_jets_load : Z -> list (list (particle num)) * list num;
  cepc_load : Z -> list (list (particle num)) * list num;

  (* energyflow.utils *)
  to_categorical : list num -> Z -> list (list num);
  data_split : forall A B : Type, list A -> list B -> Q -> Q ->
               (list A * list A * list A) * (list B * list B * list B);
  pixelate : list (particle num) -> nat -> Q -> nat -> bool -> bool -> image;
  zero_center : list image * list image * list image ->
                list image * list image * list image;
  standardize : list image * list image * list image ->
                list image * list image * list image;

  (* energyflow: EFPs and four-vectors *)
  EFPSet : nat -> string -> Q -> efpset;
  batch_compute : efpset -> list (list (particle num)) -> list (list num);
  sel : efpset -> nat -> colsel;
  p4s_from_ptyphims : list (particle num) -> list p4;
  sum_axis0 : list p4 -> p4;
  ms_from_p4s : p4 -> num;

  (* energyflow.archs *)
  DNN : nat -> list Z -> bool -> dnn;
  dnn_fit : dnn -> list (list num) -> list (list num) -> Z -> Z ->
            list (list num) * list (list num) -> Z -> dnn;
  dnn_predict : dnn -> list (list num) -> Z -> list (list num);
  CNN : cnn_hps -> cnn;
  cnn_fit : cnn -> list image -> list (list num) -> Z -> Z ->
            list image * list (list num) -> Z -> cnn;
  cnn_predict : cnn -> list image -> Z -> list (list num);
  LinearClassifier : string -> linclass;
  lin_fit : linclass -> list (list num) -> list num -> linclass;
  lin_predict : linclass -> list (list num) -> list (list num);

  (* sklearn.metrics: roc_curve returns (fpr, tpr, thresholds) *)
  roc_curve : list num -> list num -> list num * list num * list num;
  roc_auc_score : list num -> list num -> num
}.

Section Arrays.

Variable L : Lib.

Definition vector : Type := list (num L).
Definition matrix : Type := list (list (num L)).
Definition jet : Type := list (particle (num L)).
Definition roc : Type := (vector * vector * vector)%type.

(** [r[0]], [r[1]] and [r[2]] of the tuple returned by [roc_curve]. *)
Definition fpr (r : roc) : vector := fst (fst r).
Definition tpr (r : roc) : vector := snd (fst r).
Definition thresholds (r : roc) : vector := snd r.

(** [x[x[:,0] > 0]]: the rows of [x] whose first column is positive. *)
Definition mask (x : jet) : jet :=
  filter (fun p => gt_zero L (pt p)) x.

(** [[x[x[:,0] > 0] for x in X]] *)
Definition masked (X : list jet) : list jet := map mask X.

(** [X[:,:k]]: the first [k] columns of every row. *)
Definition colprefix (k : nat) (X : matrix) : matrix := map (firstn k) X.

(** [1 - a] on a vector. *)
Definition rejection (a : vector) : vector := map (one_minus L) a.

(** [-a] on a vector. *)
Definition neg (a : vector) : vector := map (negate L) a.

(** [np.count_nonzero(x[:,0])] *)
Definition count_nonzero_pt (x : jet) : num L :=
  of_count L (List.length (filter (fun p => nonzero L (pt p)) x)).

(** [ef.ms_from_p4s(ef.p4s_from_ptyphims(x).sum(axis=0))] *)
Definition jet_mass (x : jet) : num L :=
  ms_from_p4s L (sum_axis0 L (p4s_from_ptyphims L x)).

End Arrays.

(* ================================================================= *)
(** ** Events, results and the script monad *)

Inductive dataset : Type := QG_nsubs | QG_jets | CEPC.

(** The model classes of [energyflow.archs] the scripts instantiate. *)
Inductive arch : Type :=
| ArchDNN
| ArchCNN
| ArchLinear (linclass_type : string).

Inductive exn : Type := IndexError.

Inductive result (A : Type) : Type :=
| Done (a : A)
| Raised (e : exn).

Arguments Raised {A} e.

Section Runtime.

Variable L : Lib.

(** An argument of [print]. *)
Inductive token : Type :=
| Str (s : string)
| Val (v : num L).

(** What is handed to [data_split], [fit] and [predict]: a table of
    per-jet feature rows or a stack of jet images. *)
Inductive features : Type :=
| Tab (m : matrix L)
| Pix (imgs : list (image L)).

Inductive event : Type :=
| Print (line : list token) (ending : string)
| Load (ds : dataset) (n : Z)
| ToCategorical (y : vector L)
| NewEFPSet (dmax : nat) (measure : string) (beta : Q)
| BatchCompute (jets : list (jet L)) (out : matrix L)
| SelectEFPs (d : nat)
| PixelateAll (jets : list (jet L)) (out : list (image L))
| ZeroCenter
| Standardize
| Build (a : arch)
| DataSplit (X : features) (val test : Q)
| Fit (a : arch) (X_train : features)
| Predict (a : arch) (X_test : features)
| RocCurve (y_true y_score : vector L) (out : roc L)
| RocAucScore (y_true y_score : vector L) (out : num L)
| JetMasses (jets : list (jet L))
| Multiplicities (jets : list (jet L))
| RcParam (key : string)
| Plot (x y : vector L) (color label : string)
| XLabel (s : string)
| YLabel (s : string)
| XLim
| YLim
| Legend
| SaveFig (file : string)
| Show.

(** A run: the events emitted so far and how the run ended. *)
Definition M (A : Type) : Type := (list event * result A)%type.

Definition ret {A} (a : A) : M A := ([], Done a).

Definition bind {A B} (m : M A) (f : A -> M B) : M B :=
  match m with
  | (t, Done a) => let (t', r) := f a in (t ++ t', r)
  | (t, Raised e) => (t, Raised e)
  end.

Definition emit (e : event) : M unit := ([e], Done tt).

Definition raise {A} (e : exn) : M A := ([], Raised e).

Definition trace {A} (m : M A) : list event := fst m.

Definition outcome {A} (m : M A) : result A := snd m.

End Runtime.

Arguments ret {L A} a.
Arguments raise {L A} e.
Arguments Print {L} line ending.
Arguments Load {L} ds n.
Arguments NewEFPSet {L} dmax measure beta.
Arguments SelectEFPs {L} d.
Arguments ZeroCenter {L}.
Arguments Standardize {L}.
Arguments Build {L} a.
Arguments RcParam {L} key.
Arguments XLabel {L} s.
Arguments YLabel {L} s.
Arguments XLim {L}.
Arguments YLim {L}.
Arguments Legend {L}.
Arguments SaveFig {L} file.
Arguments Show {L}.
Arguments Str {L} s.
Arguments Val {L} v.
Arguments Tab {L} m.
Arguments Pix {L} imgs.
Arguments ToCategorical {L} y.
Arguments BatchCompute {L} jets out.
Arguments PixelateAll {L} jets out.
Arguments DataSplit {L} X val test.
Arguments Fit {L} a X_train.
Arguments Predict {L} a X_test.
Arguments RocCurve {L} y_true y_score out.
Arguments RocAucScore {L} y_true y_score out.
Arguments JetMasses {L} jets.
Arguments Multiplicities {L} jets.
Arguments Plot {L} x y color label.

Declare Scope script_scope.
Delimit Scope script_scope with script.
Notation "x <- c ;; k" := (bind c (fun x => k))
  (at level 61, c at next level, right associativity) : script_scope.
Notation "c ;; k" := (bind c (fun _ => k))
  (at level 61, right associativity) : script_scope.
Open Scope script_scope.

Section Python.

Variable L : Lib.

Definition nl : string := String (ascii_of_nat 10) EmptyString.

(** [print(a, b, ...)] and [print(..., end=e)] *)
Definition print (line : list (token L)) : M L unit := emit (Print line nl).
Definition print_end (line : list (token L)) (e : string) : M L unit :=
  emit (Print line e).

(** ['{}'.format(n)] for the integers the scripts format. *)
Definition fmt (n : nat) : string := NilZero.string_of_uint (Nat.to_uint n).
Definition fmtZ (z : Z) : string := NilZero.string_of_int (Z.to_int z).

(** [xs[i]] on a Python list. *)
Definition item {A} (xs : list A) (i : nat) : M L A :=
  match nth_error xs i with
  | Some x => ret x
  | None => raise IndexError
  end.

(** [for x in xs: body], threading the variables the body rebinds. *)
Fixpoint for_each {X S} (xs : list X) (body : X -> S -> M L S) (s : S) : M L S :=
  match xs with
  | [] => ret s
  | x :: xs' => s' <- body x s ;; for_each xs' body s'
  end.

Definition range (a b : nat) : list nat := seq a (b - a).

Definition enumerate {A} (xs : list A) : list (nat * A) :=
  combine (seq 0 (List.length xs)) xs.

(** [try: from sklearn.metrics import roc_auc_score, roc_curve
     except: print(...); roc_curve = False].  The result is the truth value
    of the name [roc_curve] afterwards. *)
Definition import_sklearn (env : environment) : M L bool :=
  if has_sklearn env then ret true
  else print [Str "please install scikit-learn in order to make ROC curves"] ;;
       ret false.

(** [try: import matplotlib.pyplot as plt
     except: print(...); plt = False] *)
Definition import_matplotlib (env : environment) : M L bool :=
  if has_matplotlib env then ret true
  else print [Str "please install matploltib in order to make plots"] ;;
       ret false.

(** *** Library calls: each logs its event and returns the library's value *)

Definition load_qg_nsubs (n : Z) : M L (matrix L * vector L) :=
  emit (Load QG_nsubs n) ;; ret (qg_nsubs_load L n).

Definition load_qg_jets (n : Z) : M L (list (jet L) * vector L) :=
  emit (Load QG_jets n) ;; ret (qg_jets_load L n).

Definition load_cepc (n : Z) : M L (list (jet L) * vector L) :=
  emit (Load CEPC n) ;; ret (cepc_load L n).

Definition call_to_categorical (y : vector L) (num_classes : Z) : M L (matrix L) :=
  emit (ToCategorical y) ;; ret (to_categorical L y num_classes).

Definition split_tab {B} (X : matrix L) (Y : list B) (val test : Q)
  : M L ((matrix L * matrix L * matrix L) * (list B * list B * list B)) :=
  emit (DataSplit (Tab X) val test) ;; ret (data_split L X Y val test).

Definition split_pix {B} (X : list (image L)) (Y : list B) (val test : Q)
  : M L ((list (image L) * list (image L) * list (image L))
         * (list B * list B * list B)) :=
  emit (DataSplit (Pix X) val test) ;; ret (data_split L X Y val test).

Definition new_EFPSet (dmax : nat) (measure : string) (beta : Q) : M L (efpset L) :=
  emit (NewEFPSet dmax measure beta) ;; ret (EFPSet L dmax measure beta).

Definition call_batch_compute (s : efpset L) (jets : list (jet L)) : M L (matrix L) :=
  emit (BatchCompute jets (batch_compute L s jets)) ;; ret (batch_compute L s jets).

Definition call_sel (s : efpset L) (d : nat) : M L (colsel L) :=
  emit (SelectEFPs d) ;; ret (sel L s d).

Definition new_DNN (input_dim : nat) (dense_sizes : list Z) (summary : bool)
  : M L (dnn L) :=
  emit (Build ArchDNN) ;; ret (DNN L input_dim dense_sizes summary).

Definition call_dnn_fit (m : dnn L) (X Y : matrix L) (epochs batch_size : Z)
    (validation_data : matrix L * matrix L) (verbose : Z) : M L (dnn L) :=
  emit (Fit ArchDNN (Tab X)) ;;
  ret (dnn_fit L m X Y epochs batch_size validation_data verbose).

Definition call_dnn_predict (m : dnn L) (X : matrix L) (batch_size : Z)
  : M L (matrix L) :=
  emit (Predict ArchDNN (Tab X)) ;; ret (dnn_predict L m X batch_size).

Definition new_CNN (hps : cnn_hps) : M L (cnn L) :=
  emit (Build ArchCNN) ;; ret (CNN L hps).

Definition call_cnn_fit (m : cnn L) (X : list (image L)) (Y : matrix L)
    (epochs batch_size : Z) (validation_data : list (image L) * matrix L)
    (verbose : Z) : M L (cnn L) :=
  emit (Fit ArchCNN (Pix X)) ;;
  ret (cnn_fit L m X Y epochs batch_size validation_data verbose).

Definition call_cnn_predict (m : cnn L) (X : list (image L)) (batch_size : Z)
  : M L (matrix L) :=
  emit (Predict ArchCNN (Pix X)) ;; ret (cnn_predict L m X batch_size).

Definition new_LinearClassifier (linclass_type : string) : M L (linclass L) :=
  emit (Build (ArchLinear linclass_type)) ;; ret (LinearClassifier L linclass_type).

(** The model object remembers the type it was built with; [fit] and
    [predict] are logged under it. *)
Definition call_lin_fit (linclass_type : string) (m : linclass L)
    (X : matrix L) (y : vector L) : M L (linclass L) :=
  emit (Fit (ArchLinear linclass_type) (Tab X)) ;; ret (lin_fit L m X y).

Definition call_lin_predict (linclass_type : string) (m : linclass L)
    (X : matrix L) : M L (matrix L) :=
  emit (Predict (ArchLinear linclass_type) (Tab X)) ;; ret (lin_predict L m X).

Definition call_roc_curve (y_true y_score : vector L) : M L (roc L) :=
  emit (RocCurve y_true y_score (roc_curve L y_true y_score)) ;;
  ret (roc_curve L y_true y_score).

Definition call_roc_auc_score (y_true y_score : vector L) : M L (num L) :=
  emit (RocAucScore y_true y_score (roc_auc_score L y_true y_score)) ;;
  ret (roc_auc_score L y_true y_score).

(** The three [plt.rcParams[...] = ...] assignments every plotting block
    starts with. *)
Definition plot_settings : M L unit :=
  emit (RcParam "figure.figsize") ;;
  emit (RcParam "font.family") ;;
  emit (RcParam "figure.autolayout").

(** [plt.plot(x, y, '-', color=c, label=l)] *)
Definition plt_plot (x y : vector L) (color label : string) : M L unit :=
  emit (Plot x y color label).

(** [plt.xlabel; plt.ylabel; plt.xlim(0, 1); plt.ylim(0, 1);
     plt.legend(loc='lower left', frameon=False)] *)
Definition axes_and_legend (xl yl : string) : M L unit :=
  emit (XLabel xl) ;; emit (YLabel yl) ;; emit XLim ;; emit YLim ;; emit Legend.

(** [np.asarray([pixelate(x, ...) for x in X])] *)
Definition pixelate_all (X : list (jet L)) (npix : nat) (img_width : Q)
    (nb_chan : nat) (norm charged_counts_only : bool) : M L (list (image L)) :=
  let images :=
    map (fun x => pixelate L x npix img_width nb_chan norm charged_counts_only) X in
  emit (PixelateAll X images) ;; ret images.

Definition call_zero_center (a : list (image L) * list (image L) * list (image L))
  : M L (list (image L) * list (image L) * list (image L)) :=
  emit ZeroCenter ;; ret (zero_center L a).

Definition call_standardize (a : list (image L) * list (image L) * list (image L))
  : M L (list (image L) * list (image L) * list (image L)) :=
  emit Standardize ;; ret (standardize L a).

(** [np.asarray([ef.ms_from_p4s(ef.p4s_from_ptyphims(x).sum(axis=0)) for x in X])] *)
Definition jet_masses (X : list (jet L)) : M L (vector L) :=
  emit (JetMasses X) ;; ret (map (@jet_mass L) X).

(** [np.asarray([np.count_nonzero(x[:,0]) for x in X])] *)
Definition multiplicities (X : list (jet L)) : M L (vector L) :=
  emit (Multiplicities X) ;; ret (map (@count_nonzero_pt L) X).

(** The parts of what [data_split] returns.  With [val=0] the Python
    function returns the train and test parts only. *)
Definition train_of {A} (t : list A * list A * list A) : list A := fst (fst t).
Definition val_of {A} (t : list A * list A * list A) : list A := snd (fst t).
Definition test_of {A} (t : list A * list A * list A) : list A := snd t.

End Python.

Arguments call_batch_compute {L} s jets.
Arguments call_sel {L} s d.
Arguments call_dnn_fit {L} m X Y epochs batch_size validation_data verbose.
Arguments call_dnn_predict {L} m X batch_size.
Arguments call_cnn_fit {L} m X Y epochs batch_size validation_data verbose.
Arguments call_cnn_predict {L} m X batch_size.
Arguments call_lin_fit {L} linclass_type m X y.
Arguments call_lin_predict {L} linclass_type m X.
Arguments call_zero_center {L} a.
Arguments call_standardize {L} a.
Arguments pixelate_all {L} X npix img_width nb_chan norm charged_counts_only.
Arguments split_pix {L B} X Y val test.
Arguments split_tab {L B} X Y val test.
Arguments jet_masses {L} X.
Arguments multiplicities {L} X.

(* ================================================================= *)
(** ** examples/dnn_example.py *)

Module dnn_example.
Section Script.

Variable L : Lib.

Definition num_data : Z := 100000.
Definition val_frac : Q := 1 # 10.
Definition test_frac : Q := 15 # 100.
Definition dense_sizes : list Z := [100; 100]%Z.
Definition num_epoch : Z := 10.
Definition batch_size : Z := 100.
Definition num_nsubs : list nat := [1; 2; 4; 8; 16; 32]%nat.
Definition colors : list string :=
  ["tab:red"; "tab:orange"; "tab:olive"; "tab:green"; "tab:blue"; "tab:purple"].

(** One pass of the sweep loop (lines 60-89); [rocs] is the list the loop
    appends to. *)
Definition sweep_step (roc_curve : bool) (X Y : matrix L)
    (it : nat * nat) (rocs : list (roc L)) : M L (list (roc L)) :=
  let i := fst it in
  let num_nsub := snd it in
  dnn <- new_DNN L num_nsub dense_sizes (i =? 0)%nat ;;
  s <- split_tab (colprefix num_nsub X) Y val_frac test_frac ;;
  let X_train := train_of (fst s) in
  let X_val := val_of (fst s) in
  let X_test := test_of (fst s) in
  let Y_train := train_of (snd s) in
  let Y_val := val_of (snd s) in
  let Y_test := test_of (snd s) in
  print [Str "Done train/val/test split"] ;;
  dnn <- call_dnn_fit dnn X_train Y_train num_epoch batch_size (X_val, Y_val) 1 ;;
  preds <- call_dnn_predict dnn X_test 1000 ;;
  if roc_curve then
    r <- call_roc_curve (column L 1 Y_test) (column L 1 preds) ;;
    auc <- call_roc_auc_score (column L 1 Y_test) (column L 1 preds) ;;
    print [] ;;
    print [Str (fmt num_nsub ++ " nsubs DNN AUC:"); Val auc] ;;
    print [] ;;
    ret (rocs ++ [r])
  else ret rocs.

(** The plotting block (lines 92-115). *)
Definition plotting (rocs : list (roc L)) : M L unit :=
  plot_settings L ;;
  for_each (range 0 (List.length rocs)) (fun i _ =>
    r <- item L rocs i ;;
    c <- item L colors i ;;
    n <- item L num_nsubs i ;;
    plt_plot (tpr r) (rejection (fpr r)) c ("DNN: " ++ fmt n ++ " N-subs")) tt ;;
  axes_and_legend L "Quark Jet Efficiency" "Gluon Jet Rejection" ;;
  emit (SaveFig "dnn_example.jpg") ;;
  emit Show.

Definition main (env : environment) : M L unit :=
  print [Str "-----imports succeed-------"] ;;
  roc_curve <- import_sklearn L env ;;
  plt <- import_matplotlib L env ;;
  print [Str "========================="] ;;
  print [Str "========================="] ;;
  d <- load_qg_nsubs L num_data ;;
  let X := fst d in
  let y := snd d in
  Y <- call_to_categorical y 2 ;;
  print [Str "Loaded quark and gluon jets"] ;;
  print [Str "Model summary:"] ;;
  rocs <- for_each (enumerate num_nsubs) (sweep_step roc_curve X Y) [] ;;
  if plt then plotting rocs else ret tt.

End Script.
End dnn_example.

(* ================================================================= *)
(** ** examples/efp_example.py *)

Module efp_example.
Section Script.

Variable L : Lib.

Definition num_data : Z := 20000.
Definition test_frac : Q := 2 # 10.
Definition dmax : nat := 5.
Definition measure : string := "hadr".
Definition beta : Q := 5 # 10.
Definition colors : list string :=
  ["tab:red"; "tab:orange"; "tab:olive"; "tab:green"; "tab:blue"].

(** One pass of the training loop (lines 57-83); [X] is the EFP table. *)
Definition sweep_step (roc_curve : bool) (efpset : efpset L) (X : matrix L)
    (y : vector L) (d : nat) (rocs : list (roc L)) : M L (list (roc L)) :=
  model <- new_LinearClassifier L "lda" ;;
  cols <- call_sel efpset d ;;
  let X_d := select_cols L X cols in
  s <- split_tab X_d y 0 test_frac ;;
  let X_train := train_of (fst s) in
  let X_test := test_of (fst s) in
  let y_train := train_of (snd s) in
  let y_test := test_of (snd s) in
  print [Str "Done train/val/test split"] ;;
  model <- call_lin_fit "lda" model X_train y_train ;;
  preds <- call_lin_predict "lda" model X_test ;;
  if roc_curve then
    r <- call_roc_curve y_test (column L 1 preds) ;;
    auc <- call_roc_auc_score y_test (column L 1 preds) ;;
    print [] ;;
    print [Str ("EFPs d <= " ++ fmt d ++ " AUC:"); Val auc] ;;
    print [] ;;
    ret (rocs ++ [r])
  else ret rocs.

(** The plotting block (lines 86-109). *)
Definition plotting (rocs : list (roc L)) : M L unit :=
  plot_settings L ;;
  for_each (enumerate (range 1 (dmax + 1))) (fun it _ =>
    let i := fst it in
    let d := snd it in
    r <- item L rocs i ;;
    c <- item L colors i ;;
    plt_plot (tpr r) (rejection (fpr r)) c ("LDA: d <= " ++ fmt d ++ " EFPs")) tt ;;
  axes_and_legend L "Quark Jet Efficiency" "Gluon Jet Rejection" ;;
  emit (SaveFig "efp_example.jpg") ;;
  emit Show.

Definition main (env : environment) : M L unit :=
  roc_curve <- import_sklearn L env ;;
  plt <- import_matplotlib L env ;;
  d <- load_qg_jets L num_data ;;
  let X := fst d in
  let y := snd d in
  print [Str "Loaded quark and gluon jets"] ;;
  print_end [Str ("Calculating d <= " ++ fmt dmax ++ " EFPs for " ++ fmtZ num_data
                  ++ " jets... ")] EmptyString ;;
  efpset <- new_EFPSet L dmax "hadr" beta ;;
  let masked_X := masked X in
  X <- call_batch_compute efpset masked_X ;;
  print [Str "Done"] ;;
  rocs <- for_each (range 1 (dmax + 1)) (sweep_step roc_curve efpset X y) [] ;;
  if plt then plotting rocs else ret tt.

End Script.
End efp_example.

(* ================================================================= *)
(** ** examples/test_efp.py *)

Module test_efp.
Section Script.

Variable L : Lib.

Definition num_data : Z := 15000.
Definition test_frac : Q := 2 # 10.
Definition dmax : nat := 4.
Definition measure : string := "ee".
Definition beta : Q := 2 # 10.
Definition colors : list string :=
  ["tab:red"; "tab:orange"; "tab:olive"; "tab:green"; "tab:blue"; "tab:black"].

(** One pass of the training loop (lines 71-97); [X] is the EFP table. *)
Definition sweep_step (roc_curve : bool) (efpset : efpset L) (X : matrix L)
    (y : vector L) (d : nat) (rocs : list (roc L)) : M L (list (roc L)) :=
  model <- new_LinearClassifier L "lda" ;;
  cols <- call_sel efpset d ;;
  let X_d := select_cols L X cols in
  s <- split_tab X_d y 0 test_frac ;;
  let X_train := train_of (fst s) in
  let X_test := test_of (fst s) in
  let y_train := train_of (snd s) in
  let y_test := test_of (snd s) in
  print [Str "Done train/val/test split"] ;;
  model <- call_lin_fit "lda" model X_train y_train ;;
  preds <- call_lin_predict "lda" model X_test ;;
  if roc_curve then
    r <- call_roc_curve y_test (column L 1 preds) ;;
    auc <- call_roc_auc_score y_test (column L 1 preds) ;;
    print [] ;;
    print [Str ("EFPs d <= " ++ fmt d ++ " AUC:"); Val auc] ;;
    print [] ;;
    ret (rocs ++ [r])
  else ret rocs.

(** The plotting block (lines 100-123). *)
Definition plotting (rocs : list (roc L)) : M L unit :=
  plot_settings L ;;
  for_each (enumerate (range 1 (dmax + 1))) (fun it _ =>
    let i := fst it in
    let d := snd it in
    r <- item L rocs i ;;
    c <- item L colors i ;;
    plt_plot (tpr r) (rejection (fpr r)) c ("LDA: d <= " ++ fmt d ++ " EFPs")) tt ;;
  axes_and_legend L "B Quark Jet Efficiency" "C Quark Jet Rejection" ;;
  emit Show ;;
  emit (SaveFig "cepc.jpg").

Definition main (env : environment) : M L unit :=
  roc_curve <- import_sklearn L env ;;
  plt <- import_matplotlib L env ;;
  d <- load_cepc L num_data ;;
  let X := fst d in
  let y := snd d in
  print [Str "Loaded b-quark and c-quark jets"] ;;
  print_end [Str ("Calculating d <= " ++ fmt dmax ++ " EFPs for " ++ fmtZ num_data
                  ++ " jets... " ++ nl)] EmptyString ;;
  efpset <- new_EFPSet L dmax "ee" beta ;;
  let masked_X := masked X in
  X <- call_batch_compute efpset masked_X ;;
  print [Str "Done"] ;;
  rocs <- for_each (range 1 (dmax + 1)) (sweep_step roc_curve efpset X y) [] ;;
  if plt then plotting rocs else ret tt.

End Script.
End test_efp.

(* ================================================================= *)
(** ** examples/test_cnn.py *)

Module test_cnn.
Section Script.

Variable L : Lib.

Definition num_data : Z := 100000.
Definition val_frac : Q := 1 # 10.
Definition test_frac : Q := 15 # 100.
Definition R : Q := 4 # 10.
Definition img_width : Q := 2 * R.
Definition npix : nat := 33.
Definition nb_chan : nat := 2.
Definition norm : bool := true.
Definition input_shape : nat * nat * nat := (npix, npix, nb_chan).
Definition filter_sizes : list Z := [8; 4; 4]%Z.
Definition num_filters : list Z := [8; 8; 8]%Z.
Definition dense_sizes : list Z := [50]%Z.
Definition pool_sizes : Z := 2.
Definition num_epoch : Z := 2.
Definition batch_size : Z := 100.

(** The plotting block (lines 109-138), nested in the metrics block. *)
Definition plotting (X : list (jet L)) (Y : matrix L) (cnn_fp cnn_tp : vector L)
  : M L unit :=
  masses <- jet_masses X ;;
  mults <- multiplicities X ;;
  mass_roc <- call_roc_curve (column L 1 Y) (neg masses) ;;
  let mass_fp := fpr mass_roc in
  let mass_tp := tpr mass_roc in
  mult_roc <- call_roc_curve (column L 1 Y) (neg mults) ;;
  let mult_fp := fpr mult_roc in
  let mult_tp := tpr mult_roc in
  plot_settings L ;;
  plt_plot cnn_tp (rejection cnn_fp) "black" "CNN" ;;
  plt_plot mass_tp (rejection mass_fp) "blue" "Jet Mass" ;;
  plt_plot mult_tp (rejection mult_fp) "red" "Multiplicity" ;;
  axes_and_legend L "Quark Jet Efficiency" "Gluon Jet Rejection" ;;
  emit (SaveFig "test_cnn.jpg") ;;
  emit Show.

Definition main (env : environment) : M L unit :=
  roc_curve <- import_sklearn L env ;;
  plt <- import_matplotlib L env ;;
  d <- load_cepc L num_data ;;
  let X := fst d in
  let y := snd d in
  Y <- call_to_categorical y 2 ;;
  print [Str "Loaded quark and gluon jets"] ;;
  images <- pixelate_all X npix img_width nb_chan norm true ;;
  print [Str "Done making jet images"] ;;
  s <- split_pix images Y val_frac test_frac ;;
  let X_train := train_of (fst s) in
  let X_val := val_of (fst s) in
  let X_test := test_of (fst s) in
  let Y_train := train_of (snd s) in
  let Y_val := val_of (snd s) in
  let Y_test := test_of (snd s) in
  print [Str "Done train/val/test split"] ;;
  centered <- call_zero_center (X_train, X_val, X_test) ;;
  p <- call_standardize centered ;;
  let X_train := train_of p in
  let X_val := val_of p in
  let X_test := test_of p in
  print [Str "Finished preprocessing"] ;;
  print [Str "Model summary:"] ;;
  let hps := Hps input_shape filter_sizes num_filters dense_sizes pool_sizes in
  cnn <- new_CNN L hps ;;
  cnn <- call_cnn_fit cnn X_train Y_train num_epoch batch_size (X_val, Y_val) 1 ;;
  preds <- call_cnn_predict cnn X_test 1000 ;;
  if roc_curve then
    r <- call_roc_curve (column L 1 Y_test) (column L 1 preds) ;;
    let cnn_fp := fpr r in
    let cnn_tp := tpr r in
    auc <- call_roc_auc_score (column L 1 Y_test) (column L 1 preds) ;;
    print [] ;;
    print [Str "CNN AUC:"; Val auc] ;;
    print [] ;;
    if plt then plotting X Y cnn_fp cnn_tp else ret tt
  else ret tt.

End Script.
End test_cnn.

(* ================================================================= *)
(** ** The four scripts together *)

Inductive script : Type := Dnn_example | Efp_example | Test_cnn | Test_efp.

Definition all_scripts : list script :=
  [Dnn_example; Efp_example; Test_cnn; Test_efp].

Definition run (L : Lib) (s : script) (env : environment) : M L unit :=
  match s with
  | Dnn_example => dnn_example.main L env
  | Efp_example => efp_example.main L env
  | Test_cnn => test_cnn.main L env
  | Test_efp => test_efp.main L env
  end.

Definition full_env : environment := Env true true.

(** Does the script take the EFP route ([efp_example.py], [test_efp.py])? *)
Definition is_efp_script (s : script) : bool :=
  match s with
  | Efp_example | Test_efp => true
  | Dnn_example | Test_cnn => false
  end.

(** The file name each script passes to [plt.savefig]. *)
Definition image_name (s : script) : string :=
  match s with
  | Dnn_example => "dnn_example.jpg"
  | Efp_example => "efp_example.jpg"
  | Test_cnn => "test_cnn.jpg"
  | Test_efp => "cepc.jpg"
  end.

(** The model class each script instantiates. *)
Definition model_of (s : script) : arch :=
  match s with
  | Dnn_example => ArchDNN
  | Test_cnn => ArchCNN
  | Efp_example | Test_efp => ArchLinear "lda"
  end.

(** How many models a script trains: the length of its sweep. *)
Definition models_trained (s : script) : nat :=
  match s with
  | Dnn_example => List.length dnn_example.num_nsubs
  | Efp_example => List.length (range 1 (efp_example.dmax + 1))
  | Test_cnn => 1
  | Test_efp => List.length (range 1 (test_efp.dmax + 1))
  end.

(** What the EFP scripts load, by script. *)
Definition efp_dataset (L : Lib) (s : script) : option (list (jet L) * vector L) :=
  match s with
  | Efp_example => Some (qg_jets_load L efp_example.num_data)
  | Test_efp => Some (cepc_load L test_efp.num_data)
  | Dnn_example | Test_cnn => None
  end.

(* ================================================================= *)
(** ** Reading a trace *)




Section Reading.

Variable L : Lib.



(** The files a run writes, in order. *)
Fixpoint files_written (t : list (event L)) : list string :=
  match t with
  | [] => []
  | SaveFig f :: t' => f :: files_written t'
  | _ :: t' => files_written t'
  end.

(** The lines a run prints, in order. *)
Fixpoint printed (t : list (event L)) : list (list (token L) * string) :=
  match t with
  | [] => []
  | Print line e :: t' => (line, e) :: printed t'
  | _ :: t' => printed t'
  end.

(** What a run leaves on the console or in the file system. *)
Definition is_output (e : event L) : bool :=
  match e with
  | Print _ _ | SaveFig _ => true
  | _ => false
  end.

(** Calls into [sklearn.metrics]. *)
Definition is_sklearn_call (e : event L) : bool :=
  match e with
  | RocCurve _ _ _ | RocAucScore _ _ _ => true
  | _ => false
  end.

(** The curves [roc_curve] returned, in call order. *)
Fixpoint rocs_computed (t : list (event L)) : list (roc L) :=
  match t with
  | [] => []
  | RocCurve _ _ out :: t' => out :: rocs_computed t'
  | _ :: t' => rocs_computed t'
  end.

(** The areas [roc_auc_score] returned, in call order. *)
Fixpoint aucs_computed (t : list (event L)) : list (num L) :=
  match t with
  | [] => []
  | RocAucScore _ _ out :: t' => out :: aucs_computed t'
  | _ :: t' => aucs_computed t'
  end.

(** The numbers a run prints: only the AUC lines print one. *)
Fixpoint values_in (line : list (token L)) : list (num L) :=
  match line with
  | [] => []
  | Val v :: line' => v :: values_in line'
  | Str _ :: line' => values_in line'
  end.

Fixpoint aucs_printed (t : list (event L)) : list (num L) :=
  match t with
  | [] => []
  | Print line _ :: t' => values_in line ++ aucs_printed t'
  | _ :: t' => aucs_printed t'
  end.

(** The [(x, y)] arrays handed to [plt.plot], in order. *)
Fixpoint plotted (t : list (event L)) : list (vector L * vector L) :=
  match t with
  | [] => []
  | Plot x y _ _ :: t' => (x, y) :: plotted t'
  | _ :: t' => plotted t'
  end.

(** The model classes [fit] was called on, and those constructed. *)
Fixpoint fitted (t : list (event L)) : list arch :=
  match t with
  | [] => []
  | Fit a _ :: t' => a :: fitted t'
  | _ :: t' => fitted t'
  end.

Fixpoint built (t : list (event L)) : list arch :=
  match t with
  | [] => []
  | Build a :: t' => a :: built t'
  | _ :: t' => built t'
  end.

(** The training inputs of the [fit] calls, and the inputs of the
    [data_split] calls. *)
Fixpoint fit_inputs (t : list (event L)) : list (features L) :=
  match t with
  | [] => []
  | Fit _ X :: t' => X :: fit_inputs t'
  | _ :: t' => fit_inputs t'
  end.

Fixpoint split_inputs (t : list (event L)) : list (features L) :=
  match t with
  | [] => []
  | DataSplit X _ _ :: t' => X :: split_inputs t'
  | _ :: t' => split_inputs t'
  end.

(** The EFP computations of a run: the jets handed to [batch_compute] and
    the table it returned. *)
Fixpoint batch_steps (t : list (event L)) : list (list (jet L) * matrix L) :=
  match t with
  | [] => []
  | BatchCompute jets out :: t' => (jets, out) :: batch_steps t'
  | _ :: t' => batch_steps t'
  end.

(** The jet-image computations of a run. *)
Fixpoint pixel_steps (t : list (event L)) : list (list (jet L) * list (image L)) :=
  match t with
  | [] => []
  | PixelateAll jets out :: t' => (jets, out) :: pixel_steps t'
  | _ :: t' => pixel_steps t'
  end.

(** An event that computes features from jet constituents. *)
Definition is_feature_step (e : event L) : bool :=
  match e with
  | BatchCompute _ _ | PixelateAll _ _ => true
  | _ => false
  end.

(** Scans a trace: has a dataset been loaded, and have features been
    computed from it since, by the time of every [fit]?  The result is
    [false] too when nothing is fitted. *)
Fixpoint features_before_fit (loaded computed fit_seen : bool)
    (t : list (event L)) : bool :=
  match t with
  | [] => fit_seen
  | Load _ _ :: t' => features_before_fit true computed fit_seen t'
  | Fit _ _ :: t' => computed && features_before_fit loaded computed true t'
  | e :: t' =>
      features_before_fit loaded (computed || (loaded && is_feature_step e))
                          fit_seen t'
  end.

Definition computes_features (t : list (event L)) : bool :=
  features_before_fit false false false t.

End Reading.







(* ================================================================= *)
(** ** A small concrete library

    Integers for array entries, the identity for everything that
    preprocesses, and two jets with a zero-padded row each. *)

Definition toy_jets : list (list (particle Z)) * list Z :=
  ([ [Particle 3%Z [1%Z]; Particle 0%Z [0%Z]];
     [Particle 0%Z [0%Z]; Particle 5%Z [2%Z]] ],
   [0%Z; 1%Z]).

Definition toy : Lib := {|
  num := Z;
  image := nat;
  p4 := Z;
  efpset := nat;
  colsel := nat;
  dnn := nat;
  cnn := nat;
  linclass := nat;
  one_minus := fun v => (1 - v)%Z;
  negate := Z.opp;
  gt_zero := fun v => (0 <? v)%Z;
  nonzero := fun v => negb (v =? 0)%Z;
  of_count := Z.of_nat;
  column := fun k a => map (fun r => nth k r 0%Z) a;
  select_cols := fun a k => map (firstn k) a;
  qg_nsubs_load := fun _ => ([[1; 2; 3]; [4; 5; 6]]%Z, [0; 1]%Z);
  qg_jets_load := fun _ => toy_jets;
  cepc_load := fun _ => toy_jets;
  to_categorical := fun y _ => map (fun v => [(1 - v)%Z; v]) y;
  data_split := fun A B X Y _ _ => ((X, [], X), (Y, [], Y));
  pixelate := fun x _ _ _ _ _ => List.length x;
  zero_center := fun a => a;
  standardize := fun a => a;
  EFPSet := fun d _ _ => d;
  batch_compute := fun _ js => map (fun j => [Z.of_nat (List.length j)]) js;
  sel := fun _ d => d;
  p4s_from_ptyphims := map (fun p => pt p);
  sum_axis0 := fun l => fold_right Z.add 0%Z l;
  ms_from_p4s := fun v => v;
  DNN := fun d _ _ => d;
  dnn_fit := fun m _ _ _ _ _ _ => m;
  dnn_predict := fun _ X _ => X;
  CNN := fun _ => 0%nat;
  cnn_fit := fun m _ _ _ _ _ _ => m;
  cnn_predict := fun _ X _ => map (fun n => [0%Z; Z.of_nat n]) X;
  LinearClassifier := fun _ => 0%nat;
  lin_fit := fun m _ _ => m;
  lin_predict := fun _ X => X;
  roc_curve := fun a b => (a, b, []);
  roc_auc_score := fun _ _ => 0%Z
|}.



(* ================================================================= *)
(** ** More readings of a trace, and the data flow of one pass *)

(** What happens to the figure at the end of a plotting block. *)
Inductive figure_action : Type :=
| Saved (file : string)
| Shown.

Section Evaluation.

Variable L : Lib.

(** The arguments of the [roc_curve] calls, in call order. *)
Fixpoint roc_calls (t : list (event L)) : list (vector L * vector L) :=
  match t with
  | [] => []
  | RocCurve y_true y_score _ :: t' => (y_true, y_score) :: roc_calls t'
  | _ :: t' => roc_calls t'
  end.

(** The arguments of the [roc_auc_score] calls, in call order. *)
Fixpoint auc_calls (t : list (event L)) : list (vector L * vector L) :=
  match t with
  | [] => []
  | RocAucScore y_true y_score _ :: t' => (y_true, y_score) :: auc_calls t'
  | _ :: t' => auc_calls t'
  end.

(** What [predict] was called on, in call order. *)
Fixpoint predict_inputs (t : list (event L)) : list (features L) :=
  match t with
  | [] => []
  | Predict _ X :: t' => X :: predict_inputs t'
  | _ :: t' => predict_inputs t'
  end.

(** The [color] and [label] of the [plt.plot] calls, in call order. *)
Fixpoint plot_styles (t : list (event L)) : list (string * string) :=
  match t with
  | [] => []
  | Plot _ _ color label :: t' => (color, label) :: plot_styles t'
  | _ :: t' => plot_styles t'
  end.

(** The [plt.savefig] and [plt.show] calls, in call order. *)
Fixpoint figure_actions (t : list (event L)) : list figure_action :=
  match t with
  | [] => []
  | SaveFig f :: t' => Saved f :: figure_actions t'
  | Show :: t' => Shown :: figure_actions t'
  | _ :: t' => figure_actions t'
  end.

(** *** One pass of the sweep of [dnn_example.py], for index [i] and sweep
    value [k] *)

Definition dnn_split (k : nat) :=
  data_split L
    (colprefix k (fst (qg_nsubs_load L dnn_example.num_data)))
    (to_categorical L (snd (qg_nsubs_load L dnn_example.num_data)) 2)
    dnn_example.val_frac dnn_example.test_frac.

Definition dnn_model (i k : nat) : dnn L :=
  dnn_fit L (DNN L k dnn_example.dense_sizes (i =? 0)%nat)
    (train_of (fst (dnn_split k))) (train_of (snd (dnn_split k)))
    dnn_example.num_epoch dnn_example.batch_size
    (val_of (fst (dnn_split k)), val_of (snd (dnn_split k))) 1.

(** The labels and scores of the pass: column 1 of the test labels and of
    the model's predictions on the test part. *)
Definition dnn_scores (it : nat * nat) : vector L * vector L :=
  (column L 1 (test_of (snd (dnn_split (snd it)))),
   column L 1 (dnn_predict L (dnn_model (fst it) (snd it))
                 (test_of (fst (dnn_split (snd it)))) 1000)).

(** *** One pass of the loop of an EFP script, for degree [d] *)

Definition efp_split (load : Z -> list (jet L) * vector L) (num_data : Z)
    (dmax : nat) (measure : string) (beta test_frac : Q) (d : nat) :=
  data_split L
    (select_cols L
       (batch_compute L (EFPSet L dmax measure beta)
          (masked (fst (load num_data))))
       (sel L (EFPSet L dmax measure beta) d))
    (snd (load num_data)) 0 test_frac.

Definition efp_scores (load : Z -> list (jet L) * vector L) (num_data : Z)
    (dmax : nat) (measure : string) (beta test_frac : Q) (d : nat)
  : vector L * vector L :=
  let s := efp_split load num_data dmax measure beta test_frac d in
  (test_of (snd s),
   column L 1
     (lin_predict L
        (lin_fit L (LinearClassifier L "lda")
           (train_of (fst s)) (train_of (snd s)))
        (test_of (fst s)))).

(** *** The one pass of [test_cnn.py] *)

Definition cnn_split :=
  data_split L
    (map (fun x => pixelate L x test_cnn.npix test_cnn.img_width
                            test_cnn.nb_chan test_cnn.norm true)
         (fst (cepc_load L test_cnn.num_data)))
    (to_categorical L (snd (cepc_load L test_cnn.num_data)) 2)
    test_cnn.val_frac test_cnn.test_frac.

(** The three image stacks after [zero_center] and then [standardize]. *)
Definition cnn_preprocessed :=
  standardize L (zero_center L
    (train_of (fst cnn_split), val_of (fst cnn_split), test_of (fst cnn_split))).

Definition cnn_model : cnn L :=
  cnn_fit L
    (CNN L (Hps test_cnn.input_shape test_cnn.filter_sizes test_cnn.num_filters
                test_cnn.dense_sizes test_cnn.pool_sizes))
    (train_of cnn_preprocessed) (train_of (snd cnn_split))
    test_cnn.num_epoch test_cnn.batch_size
    (val_of cnn_preprocessed, val_of (snd cnn_split)) 1.

Definition cnn_scores : vector L * vector L :=
  (column L 1 (test_of (snd cnn_split)),
   column L 1 (cnn_predict L cnn_model (test_of cnn_preprocessed) 1000)).

(** The two comparison curves: all loaded labels against the negated jet
    masses and the negated multiplicities of all loaded jets. *)
Definition cnn_comparison_scores : list (vector L * vector L) :=
  let X := fst (cepc_load L test_cnn.num_data) in
  let Y := to_categorical L (snd (cepc_load L test_cnn.num_data)) 2 in
  [ (column L 1 Y, neg (map (@jet_mass L) X));
    (column L 1 Y, neg (map (@count_nonzero_pt L) X)) ].

End Evaluation.

(** The two messages of the import fallbacks. *)
Definition sklearn_message : string :=
  "please install scikit-learn in order to make ROC curves".
Definition matplotlib_message : string :=
  "please install matploltib in order to make plots".

Unset Implicit Arguments.

(** The [(x, y)] a plotting block draws for one curve: [r[1]] against
    [1 - r[0]]. *)
Definition curve_points (L : Lib) (r : roc L) : vector L * vector L :=
  (tpr r, rejection (fpr r)).

(** *** Where the classifier's input comes from

    What the EFP scripts do between loading and fitting, for the load
    function and the settings of one script: the jets are masked, the EFPs
    computed, and for each degree [d] the selected columns are split and
    the train part fitted. *)
Definition efp_pipeline (L : Lib) (s : script) (env : environment)
    (load : Z -> list (jet L) * vector L) (num_data : Z) (dmax : nat)
    (measure : string) (beta test_frac : Q) : Prop :=
  let E := EFPSet L dmax measure beta in
  let X := fst (load num_data) in
  let y := snd (load num_data) in
  let F := batch_compute L E (masked X) in
  batch_steps (trace (run L s env)) = [(masked X, F)]
  /\ split_inputs (trace (run L s env)) =
       map (fun d => Tab (select_cols L F (sel L E d))) (range 1 (dmax + 1))
  /\ fit_inputs (trace (run L s env)) =
       map (fun d => Tab (train_of (fst
              (data_split L (select_cols L F (sel L E d)) y 0 test_frac))))
           (range 1 (dmax + 1)).

(** [test_cnn.py]: the jets are pixelated, the images split, the three
    parts zero-centred and standardised, and the train part fitted. *)
Definition cnn_pipeline (L : Lib) (env : environment) : Prop :=
  let X := fst (cepc_load L test_cnn.num_data) in
  let Y := to_categorical L (snd (cepc_load L test_cnn.num_data)) 2 in
  let images :=
    map (fun x => pixelate L x test_cnn.npix test_cnn.img_width
                           test_cnn.nb_chan test_cnn.norm true) X in
  let parts :=
    fst (data_split L images Y test_cnn.val_frac test_cnn.test_frac) in
  pixel_steps (trace (run L Test_cnn env)) = [(X, images)]
  /\ split_inputs (trace (run L Test_cnn env)) = [Pix images]
  /\ fit_inputs (trace (run L Test_cnn env)) =
       [Pix (train_of (standardize L (zero_center L
          (train_of parts, val_of parts, test_of parts))))].

(** [dnn_example.py]: no event computes features; for each sweep value
    [k] the first [k] columns of the loaded table are split and the train
    part fitted. *)
Definition dnn_pipeline (L : Lib) (env : environment) : Prop :=
  let X := fst (qg_nsubs_load L dnn_example.num_data) in
  let Y := to_categorical L (snd (qg_nsubs_load L dnn_example.num_data)) 2 in
  filter (@is_feature_step L) (trace (run L Dnn_example env)) = []
  /\ split_inputs (trace (run L Dnn_example env)) =
       map (fun k => Tab (colprefix k X)) dnn_example.num_nsubs
  /\ fit_inputs (trace (run L Dnn_example env)) =
       map (fun k => Tab (train_of (fst
              (data_split L (colprefix k X) Y
                 dnn_example.val_frac dnn_example.test_frac))))
           dnn_example.num_nsubs.

(* ================================================================= *)
(** ** Lemmas on the checkers and on the array operations *)

(** Case analysis over the four scripts and the four import outcomes. *)
Ltac each_run s env :=
  destruct s; destruct env as [[|] [|]].

(** Membership in an explicit list, and its refutation. *)
Ltac find_in_list := repeat first [ left; reflexivity | right ].
Ltac none_in_list H :=
  repeat (destruct H as [H | H]; [ discriminate H | ]); contradiction H.




Lemma saved_file_written (L : Lib) (f : string) (t : list (event L)) :
  In (SaveFig f) t -> In f (files_written t).
Proof.
  induction t as [|e t IH]; intro H.
  - contradiction H.
  - destruct H as [H | H].
    + subst e. left. reflexivity.
    + destruct e; simpl; try (apply IH; exact H).
      right. apply IH. exact H.
Qed.

Lemma nth_error_firstn_cut {A : Type} (k : nat) :
  forall (row : list A) (c : nat),
    nth_error (firstn k row) c =
    if (c <? k)%nat then nth_error row c else None.
Proof.
  induction k as [|k IH]; intros row c.
  - simpl. destruct c; reflexivity.
  - destruct row as [|v row]; simpl.
    + destruct c; simpl; [reflexivity|].
      destruct (S c <? S k)%nat; reflexivity.
    + destruct c as [|c]; simpl; [reflexivity|].
      apply IH.
Qed.

Lemma firstn_extends {A : Type} (i j : nat) (row : list A) :
  (i <= j)%nat -> firstn j row = firstn i row ++ skipn i (firstn j row).
Proof.
  intro Hij. rewrite <- (firstn_skipn i (firstn j row)) at 1.
  rewrite firstn_firstn. rewrite Nat.min_l by exact Hij. reflexivity.
Qed.

Lemma masked_length (L : Lib) (X : list (jet L)) :
  List.length (masked X) = List.length X.
Proof. unfold masked. apply length_map. Qed.

Lemma masked_nth (L : Lib) (X : list (jet L)) (i : nat) :
  nth_error (masked X) i = option_map (@mask L) (nth_error X i).
Proof. unfold masked. apply nth_error_map. Qed.

Lemma mask_keeps (L : Lib) (x : jet L) (p : particle (num L)) :
  In p (mask x) <-> In p x /\ gt_zero L (pt p) = true.
Proof. unfold mask. apply filter_In. Qed.

Lemma plotted_from_rocs (L : Lib) (s : script) (env : environment) :
  plotted (trace (run L s env)) = []
  \/ plotted (trace (run L s env)) =
       map (curve_points L) (rocs_computed (trace (run L s env))).
Proof.
  each_run s env; first [ left; reflexivity | right; reflexivity ].
Qed.

Lemma rocs_from_roc_curve (L : Lib) (s : script) (env : environment) :
  Forall (fun r => exists y_true y_score, r = roc_curve L y_true y_score)
         (rocs_computed (trace (run L s env))).
Proof.
  each_run s env; cbv [run]; vm_compute rocs_computed;
    repeat (constructor; [eexists; eexists; reflexivity |]); constructor.
Qed.

(* ================================================================= *)
(** ** Properties of the scripts *)

(** C1.  How every run ends: a script stops with [IndexError] exactly
    when it is one of the two EFP scripts, scikit-learn failed to import
    and matplotlib imported; in that run nothing is plotted and no image is
    saved.  Every other run, the same environment under [dnn_example.py]
    and [test_cnn.py] included, completes. *)
Theorem optional_import_outcome (L : Lib) (s : script) (env : environment) :
  outcome (run L s env) =
    (if is_efp_script s && negb (has_sklearn env) && has_matplotlib env
     then Raised IndexError else Done tt)
  /\ plotted (trace (run L s (Env false true))) = []
  /\ files_written (trace (run L s (Env false true))) =
       (if is_efp_script s || match s with Test_cnn => true | _ => false end
        then [] else [image_name s]).
Proof.
  each_run s env; repeat split; reflexivity.
Qed.



(** C4.  What a run leaves on the console and in the file system: every
    such event is a printed line or the saving of the script's one image
    ([dnn_example.jpg], [efp_example.jpg], [test_cnn.jpg], [cepc.jpg]);
    the files written are none or exactly that image, once; and the image is
    written only if matplotlib imported, for [test_cnn.py] only if
    scikit-learn imported as well.  ([plt.show()] puts the figure on the
    screen; it writes neither to the console nor to a file.) *)
Theorem outputs_are_prints_and_one_image (L : Lib) (s : script) (env : environment) :
  (forall e, In e (trace (run L s env)) -> is_output e = true ->
     (exists line ending, e = Print line ending) \/ e = SaveFig (image_name s))
  /\ (files_written (trace (run L s env)) = []
      \/ files_written (trace (run L s env)) = [image_name s])
  /\ (files_written (trace (run L s env)) <> [] ->
      has_matplotlib env = true
      /\ (s = Test_cnn -> has_sklearn env = true)).
Proof.
  assert (Hfiles : files_written (trace (run L s env)) = []
                   \/ files_written (trace (run L s env)) = [image_name s]).
  { each_run s env; first [ left; reflexivity | right; reflexivity ]. }
  split; [|split].
  - intros e Hin Hout. destruct e; try discriminate Hout.
    + left. eexists. eexists. reflexivity.
    + right. apply saved_file_written in Hin.
      destruct Hfiles as [Hf | Hf]; rewrite Hf in Hin.
      * contradiction Hin.
      * destruct Hin as [Hin | []]. rewrite Hin. reflexivity.
  - exact Hfiles.
  - each_run s env; intro H; try (exfalso; apply H; reflexivity);
      (split; [reflexivity | intro E; try reflexivity; discriminate E]).
Qed.

(** C5.  Every model a script constructs and every model it fits is of
    the one class of that script: DNN in [dnn_example.py], CNN in
    [test_cnn.py], LinearClassifier with [linclass_type='lda'] in
    [efp_example.py] and [test_efp.py]; one model is fitted per sweep
    value, whatever imported. *)
Theorem one_model_class_per_script (L : Lib) (s : script) (env : environment) :
  fitted (trace (run L s env)) = repeat (model_of s) (models_trained s)
  /\ built (trace (run L s env)) = repeat (model_of s) (models_trained s)
  /\ models_trained s <> 0%nat
  /\ (model_of s = ArchDNN \/ model_of s = ArchCNN
      \/ model_of s = ArchLinear "lda").
Proof.
  each_run s env; repeat split; try reflexivity; try discriminate;
    first [ left; reflexivity
          | right; left; reflexivity
          | right; right; reflexivity ].
Qed.

(** C6.  In every run, [roc_curve] and [roc_auc_score] are called if
    and only if scikit-learn imported; the areas printed are exactly the
    areas computed, in order; and when the import failed the run makes no
    call into sklearn and prints neither an area nor the blank lines of
    the metrics block. *)
Theorem metrics_iff_sklearn (L : Lib) (s : script) (env : environment) :
  (rocs_computed (trace (run L s env)) <> [] <-> has_sklearn env = true)
  /\ (aucs_computed (trace (run L s env)) <> [] <-> has_sklearn env = true)
  /\ aucs_printed (trace (run L s env)) = aucs_computed (trace (run L s env))
  /\ (filter (@is_sklearn_call L) (trace (run L s env)) = []
      <-> has_sklearn env = false)
  /\ (In ([], nl) (printed (trace (run L s env))) <-> has_sklearn env = true).
Proof.
  each_run s env; cbn [has_sklearn];
    (split; [|split; [|split; [|split]]]);
    try reflexivity;
    (split; intro H);
    try reflexivity;
    try discriminate H;
    try (exfalso; apply H; reflexivity);
    try (vm_compute; discriminate);
    try (vm_compute in H; discriminate H);
    try (vm_compute; find_in_list);
    try (vm_compute in H; none_in_list H).
Qed.

(** C2, as stated, fails: [dnn_example.py] fits its models without any
    feature computation between loading and fitting. *)
Lemma dnn_example_computes_no_features :
  ~ (forall (L : Lib) (s : script) (env : environment),
       computes_features (trace (run L s env)) = true).
Proof.
  intro H. specialize (H toy Dnn_example full_env).
  vm_compute in H. discriminate H.
Qed.

(** C2, amended.  [efp_example.py], [test_efp.py] and [test_cnn.py] load
    jet constituents, compute features from them in-script (EFPs of the
    masked jets, jet images) and feed the classifier the train part of a
    split of those features.  [dnn_example.py] computes no features: it
    loads a table of N-subjettiness values and feeds each model the train
    part of a split of a column prefix of that table. *)
Theorem classifier_input_provenance (L : Lib) (env : environment) :
  (forall s, computes_features (trace (run L s env)) =
             match s with Dnn_example => false | _ => true end)
  /\ efp_pipeline L Efp_example env (qg_jets_load L) efp_example.num_data
       efp_example.dmax efp_example.measure efp_example.beta
       efp_example.test_frac
  /\ efp_pipeline L Test_efp env (cepc_load L) test_efp.num_data
       test_efp.dmax test_efp.measure test_efp.beta test_efp.test_frac
  /\ cnn_pipeline L env
  /\ dnn_pipeline L env.
Proof.
  split; [|split; [|split; [|split]]].
  - intro s. each_run s env; vm_compute; reflexivity.
  - destruct env as [[|] [|]]; repeat split; reflexivity.
  - destruct env as [[|] [|]]; repeat split; reflexivity.
  - destruct env as [[|] [|]]; repeat split; reflexivity.
  - destruct env as [[|] [|]]; repeat split; reflexivity.
Qed.

(** C8.  In [efp_example.py] and [test_efp.py] the list handed to
    [batch_compute] is the loaded list of jets with every jet filtered to
    exactly the rows whose first column is positive; it has as many jets as
    were loaded, jet [i] of it is the mask of jet [i]; and, [batch_compute]
    returning a row per jet and the dataset a label per jet, the EFP table
    has one row per label. *)
Theorem masking_keeps_every_jet (L : Lib) (s : script) (env : environment)
    (X : list (jet L)) (y : vector L) :
  efp_dataset L s = Some (X, y) ->
  (forall e js, List.length (batch_compute L e js) = List.length js) ->
  List.length X = List.length y ->
  exists F,
    batch_steps (trace (run L s env)) = [(masked X, F)]
    /\ List.length (masked X) = List.length X
    /\ (forall i, nth_error (masked X) i = option_map (@mask L) (nth_error X i))
    /\ (forall x p, In p (mask x) <-> In p x /\ gt_zero L (pt p) = true)
    /\ List.length F = List.length y.
Proof.
  intros Hload Hrows Haligned.
  assert (Hstep : exists E, batch_steps (trace (run L s env)) =
                            [(masked X, batch_compute L E (masked X))]).
  { destruct s; simpl in Hload; try discriminate Hload;
      injection Hload as Hload;
      [ exists (EFPSet L efp_example.dmax efp_example.measure efp_example.beta)
      | exists (EFPSet L test_efp.dmax test_efp.measure test_efp.beta) ];
      replace X with (fst (X, y)) by reflexivity; rewrite <- Hload;
      destruct env as [[|] [|]]; reflexivity. }
  destruct Hstep as [E Hstep].
  exists (batch_compute L E (masked X)).
  split; [exact Hstep|].
  split; [apply masked_length|].
  split; [apply masked_nth|].
  split; [apply mask_keeps|].
  rewrite Hrows, <- Haligned. apply masked_length.
Qed.

Lemma masking_keeps_every_jet_witness :
  exists F,
    batch_steps (trace (run toy Efp_example full_env)) =
      [(@masked toy (fst toy_jets), F)]
    /\ List.length (@masked toy (fst toy_jets)) = List.length (fst toy_jets)
    /\ (forall i, nth_error (@masked toy (fst toy_jets)) i =
                  option_map (@mask toy) (nth_error (fst toy_jets) i))
    /\ (forall (x : jet toy) p,
          In p (mask x) <-> In p x /\ gt_zero toy (pt p) = true)
    /\ List.length F = List.length (snd toy_jets).
Proof.
  apply (masking_keeps_every_jet toy Efp_example full_env
           (fst toy_jets) (snd toy_jets)).
  - reflexivity.
  - intros e js. simpl. apply length_map.
  - reflexivity.
Defined.

(** C9.  Whatever a plotting block of a script plots is, for one of the
    curves [roc_curve] returned in that run, the curve's true-positive
    rate as [x] and one minus its false-positive rate as [y], entry by
    entry. *)
Theorem plot_is_tpr_against_rejection (L : Lib) (s : script) (env : environment)
    (x y : vector L) :
  In (x, y) (plotted (trace (run L s env))) ->
  exists y_true y_score,
    In (roc_curve L y_true y_score) (rocs_computed (trace (run L s env)))
    /\ x = tpr (roc_curve L y_true y_score)
    /\ y = rejection (fpr (roc_curve L y_true y_score))
    /\ (forall k,
          nth_error y k =
          option_map (one_minus L)
                     (nth_error (fpr (roc_curve L y_true y_score)) k)).
Proof.
  intro Hin.
  destruct (plotted_from_rocs L s env) as [Hnone | Hall].
  - rewrite Hnone in Hin. contradiction Hin.
  - rewrite Hall in Hin. apply in_map_iff in Hin.
    destruct Hin as [r [Hpts Hr]].
    pose proof (rocs_from_roc_curve L s env) as Hfrom.
    rewrite Forall_forall in Hfrom.
    destruct (Hfrom r Hr) as [y_true [y_score Hcall]].
    exists y_true, y_score. subst r.
    unfold curve_points in Hpts. injection Hpts as Hx Hy.
    split; [exact Hr|].
    split; [symmetry; exact Hx|].
    split; [symmetry; exact Hy|].
    intro k. rewrite <- Hy. unfold rejection. apply nth_error_map.
Qed.

Lemma plot_is_tpr_against_rejection_witness :
  exists y_true y_score,
    In (roc_curve toy y_true y_score)
       (rocs_computed (trace (run toy Test_cnn full_env)))
    /\ [-3; -5]%Z = tpr (roc_curve toy y_true y_score)
    /\ [1; 0]%Z = rejection (fpr (roc_curve toy y_true y_score))
    /\ (forall k,
          nth_error [1; 0]%Z k =
          option_map (one_minus toy)
                     (nth_error (fpr (roc_curve toy y_true y_score)) k)).
Proof.
  apply (plot_is_tpr_against_rejection toy Test_cnn full_env [-3; -5]%Z [1; 0]%Z).
  vm_compute. find_in_list.
Defined.

(** C10.  In [dnn_example.py] the sweep values increase strictly, and
    pass [i] hands [data_split] a table with the rows of the loaded table
    cut to their first [num_nsubs[i]] columns: entry [c] of a row is entry
    [c] of the loaded row if [c < num_nsubs[i]] and is absent otherwise;
    the model of the pass is fitted on the train part of that split.  So
    for [i < j] every row of pass [i] is a prefix of the same row of pass
    [j]. *)
Theorem nsub_sweep_inputs_nest (L : Lib) (env : environment) (i j ki kj : nat) :
  (i < j)%nat ->
  nth_error dnn_example.num_nsubs i = Some ki ->
  nth_error dnn_example.num_nsubs j = Some kj ->
  (ki < kj)%nat
  /\ exists Xi Xj : matrix L,
       nth_error (split_inputs (trace (run L Dnn_example env))) i = Some (Tab Xi)
       /\ nth_error (split_inputs (trace (run L Dnn_example env))) j
          = Some (Tab Xj)
       /\ nth_error (fit_inputs (trace (run L Dnn_example env))) i =
            Some (Tab (train_of (fst
              (data_split L Xi
                 (to_categorical L (snd (qg_nsubs_load L dnn_example.num_data)) 2)
                 dnn_example.val_frac dnn_example.test_frac))))
       /\ List.length Xi =
          List.length (fst (qg_nsubs_load L dnn_example.num_data))
       /\ List.length Xj =
          List.length (fst (qg_nsubs_load L dnn_example.num_data))
       /\ forall r row,
            nth_error (fst (qg_nsubs_load L dnn_example.num_data)) r = Some row ->
            exists ri rj,
              nth_error Xi r = Some ri
              /\ nth_error Xj r = Some rj
              /\ (forall c, nth_error ri c =
                            if (c <? ki)%nat then nth_error row c else None)
              /\ (forall c, nth_error rj c =
                            if (c <? kj)%nat then nth_error row c else None)
              /\ (exists rest, rj = ri ++ rest).
Proof.
  intros Hij Hi Hj.
  assert (Hsplit : split_inputs (trace (run L Dnn_example env)) =
                   map (fun k => Tab (colprefix k
                          (fst (qg_nsubs_load L dnn_example.num_data))))
                       dnn_example.num_nsubs).
  { destruct env as [[|] [|]]; reflexivity. }
  assert (Hfit : fit_inputs (trace (run L Dnn_example env)) =
                 map (fun k => Tab (train_of (fst
                        (data_split L
                           (colprefix k (fst (qg_nsubs_load L dnn_example.num_data)))
                           (to_categorical L
                              (snd (qg_nsubs_load L dnn_example.num_data)) 2)
                           dnn_example.val_frac dnn_example.test_frac))))
                     dnn_example.num_nsubs).
  { destruct env as [[|] [|]]; reflexivity. }
  assert (Hlt : (ki < kj)%nat).
  { unfold dnn_example.num_nsubs in Hi, Hj.
    destruct i as [|[|[|[|[|[|i]]]]]]; simpl in Hi;
      try (destruct i; discriminate Hi);
      destruct j as [|[|[|[|[|[|j]]]]]]; simpl in Hj;
      try (destruct j; discriminate Hj);
      try (exfalso; lia);
      injection Hi as Hi; injection Hj as Hj; subst ki kj; lia. }
  split; [exact Hlt|].
  exists (colprefix ki (fst (qg_nsubs_load L dnn_example.num_data))).
  exists (colprefix kj (fst (qg_nsubs_load L dnn_example.num_data))).
  split; [rewrite Hsplit, nth_error_map, Hi; reflexivity|].
  split; [rewrite Hsplit, nth_error_map, Hj; reflexivity|].
  split; [rewrite Hfit, nth_error_map, Hi; reflexivity|].
  split; [unfold colprefix; apply length_map|].
  split; [unfold colprefix; apply length_map|].
  intros r row Hrow.
  exists (firstn ki row), (firstn kj row).
  split; [unfold colprefix; rewrite nth_error_map, Hrow; reflexivity|].
  split; [unfold colprefix; rewrite nth_error_map, Hrow; reflexivity|].
  split; [intro c; apply nth_error_firstn_cut|].
  split; [intro c; apply nth_error_firstn_cut|].
  exists (skipn ki (firstn kj row)). apply firstn_extends. lia.
Qed.

Lemma nsub_sweep_inputs_nest_witness :
  (1 < 2)%nat
  /\ exists Xi Xj : matrix toy,
       nth_error (split_inputs (trace (run toy Dnn_example full_env))) 0
         = Some (Tab Xi)
       /\ nth_error (split_inputs (trace (run toy Dnn_example full_env))) 1
          = Some (Tab Xj)
       /\ nth_error (fit_inputs (trace (run toy Dnn_example full_env))) 0 =
            Some (Tab (train_of (fst
              (data_split toy Xi
                 (to_categorical toy
                    (snd (qg_nsubs_load toy dnn_example.num_data)) 2)
                 dnn_example.val_frac dnn_example.test_frac))))
       /\ List.length Xi =
          List.length (fst (qg_nsubs_load toy dnn_example.num_data))
       /\ List.length Xj =
          List.length (fst (qg_nsubs_load toy dnn_example.num_data))
       /\ forall r row,
            nth_error (fst (qg_nsubs_load toy dnn_example.num_data)) r
              = Some row ->
            exists ri rj,
              nth_error Xi r = Some ri
              /\ nth_error Xj r = Some rj
              /\ (forall c, nth_error ri c =
                            if (c <? 1)%nat then nth_error row c else None)
              /\ (forall c, nth_error rj c =
                            if (c <? 2)%nat then nth_error row c else None)
              /\ (exists rest, rj = ri ++ rest).
Proof.
  apply (nsub_sweep_inputs_nest toy full_env 0 1 1 2).
  - lia.
  - reflexivity.
  - reflexivity.
Defined.

(* ================================================================= *)
(** ** Further properties: the plotting blocks on any list of curves *)

(** X1.  The plotting block of [dnn_example.py], given any list of
    collected curves: it completes exactly when there are no more curves
    than colours; it plots the curves it has a colour for, curve [i] in
    [colors[i]] under the label of [num_nsubs[i]]; and it saves the image
    exactly when it completes. *)
Theorem dnn_plotting_bound (L : Lib) (rocs : list (roc L)) :
  outcome (dnn_example.plotting rocs) =
    (if (List.length rocs <=? List.length dnn_example.colors)%nat
     then Done tt else Raised IndexError)
  /\ plotted (trace (dnn_example.plotting rocs)) =
       map (curve_points L) (firstn (List.length dnn_example.colors) rocs)
  /\ plot_styles (trace (dnn_example.plotting rocs)) =
       firstn (List.length rocs)
         (combine dnn_example.colors
            (map (fun n => ("DNN: " ++ fmt n ++ " N-subs")%string)
                 dnn_example.num_nsubs))
  /\ files_written (trace (dnn_example.plotting rocs)) =
       (if (List.length rocs <=? List.length dnn_example.colors)%nat
        then ["dnn_example.jpg"] else []).
Proof.
  destruct rocs as [|r0 [|r1 [|r2 [|r3 [|r4 [|r5 [|r6 rest]]]]]]];
    repeat split; reflexivity.
Qed.

(** X2.  The plotting block of [efp_example.py], given any list of
    collected curves: it completes exactly when at least [dmax] curves were
    collected and raises [IndexError] otherwise; it plots the first [dmax]
    curves it finds, and saves the image exactly when it completes. *)
Theorem efp_plotting_bound (L : Lib) (rocs : list (roc L)) :
  outcome (efp_example.plotting rocs) =
    (if (efp_example.dmax <=? List.length rocs)%nat
     then Done tt else Raised IndexError)
  /\ plotted (trace (efp_example.plotting rocs)) =
       map (curve_points L) (firstn efp_example.dmax rocs)
  /\ plot_styles (trace (efp_example.plotting rocs)) =
       firstn (List.length rocs)
         (combine efp_example.colors
            (map (fun d => ("LDA: d <= " ++ fmt d ++ " EFPs")%string)
                 (range 1 (efp_example.dmax + 1))))
  /\ files_written (trace (efp_example.plotting rocs)) =
       (if (efp_example.dmax <=? List.length rocs)%nat
        then ["efp_example.jpg"] else []).
Proof.
  destruct rocs as [|r0 [|r1 [|r2 [|r3 [|r4 rest]]]]];
    repeat split; try reflexivity.
  cbn. destruct rest; reflexivity.
Qed.

(** X3.  The plotting block of [test_efp.py], given any list of collected
    curves: the same bound with its own [dmax]; when it completes the
    figure is shown first and saved to [cepc.jpg] after. *)
Theorem test_efp_plotting_bound (L : Lib) (rocs : list (roc L)) :
  outcome (test_efp.plotting rocs) =
    (if (test_efp.dmax <=? List.length rocs)%nat
     then Done tt else Raised IndexError)
  /\ plotted (trace (test_efp.plotting rocs)) =
       map (curve_points L) (firstn test_efp.dmax rocs)
  /\ figure_actions (trace (test_efp.plotting rocs)) =
       (if (test_efp.dmax <=? List.length rocs)%nat
        then [Shown; Saved "cepc.jpg"] else []).
Proof.
  destruct rocs as [|r0 [|r1 [|r2 [|r3 rest]]]];
    repeat split; reflexivity.
Qed.

(* ================================================================= *)
(** ** Further properties: what is evaluated, and on what *)

(** X4.  In [dnn_example.py], whatever imported, every pass constructs
    a DNN, calls [fit] on the train part and [predict] on the test part of
    the split of the first [num_nsub] columns.  When scikit-learn
    imported, the curve of the pass is computed from column 1 of the test
    labels and column 1 of the predictions, on that test part, of the DNN
    built with [input_dim] the sweep value (the summary for the first
    only) and fitted on that train part, validated on the val part. *)
Theorem dnn_evaluates_held_out_part (L : Lib) (env : environment) :
  built (trace (run L Dnn_example env)) =
    repeat ArchDNN (List.length dnn_example.num_nsubs)
  /\ fit_inputs (trace (run L Dnn_example env)) =
       map (fun k => Tab (train_of (fst (dnn_split L k)))) dnn_example.num_nsubs
  /\ predict_inputs (trace (run L Dnn_example env)) =
       map (fun k => Tab (test_of (fst (dnn_split L k)))) dnn_example.num_nsubs
  /\ roc_calls (trace (run L Dnn_example env)) =
       (if has_sklearn env
        then map (dnn_scores L) (enumerate dnn_example.num_nsubs) else []).
Proof.
  destruct env as [[|] [|]]; repeat split; reflexivity.
Qed.

(** X5.  In [efp_example.py] and [test_efp.py], whatever imported, every
    pass constructs a linear classifier of type ['lda'], calls [fit] on
    the train part and [predict] on the test part of the split of the EFP
    columns of degree at most [d].  When scikit-learn imported, the curve
    of the pass is computed from the test labels and column 1 of the
    predictions, on that test part, of the classifier fitted on that train
    part with the train labels. *)
Theorem efp_evaluates_held_out_part (L : Lib) (env : environment) :
  (built (trace (run L Efp_example env)) =
     repeat (ArchLinear "lda") efp_example.dmax
   /\ fit_inputs (trace (run L Efp_example env)) =
        map (fun d => Tab (train_of (fst
               (efp_split (qg_jets_load L) efp_example.num_data efp_example.dmax
                  efp_example.measure efp_example.beta efp_example.test_frac d))))
            (range 1 (efp_example.dmax + 1))
   /\ predict_inputs (trace (run L Efp_example env)) =
        map (fun d => Tab (test_of (fst
               (efp_split (qg_jets_load L) efp_example.num_data efp_example.dmax
                  efp_example.measure efp_example.beta efp_example.test_frac d))))
            (range 1 (efp_example.dmax + 1))
   /\ roc_calls (trace (run L Efp_example env)) =
        (if has_sklearn env
         then map (efp_scores (qg_jets_load L) efp_example.num_data
                     efp_example.dmax efp_example.measure efp_example.beta
                     efp_example.test_frac)
                  (range 1 (efp_example.dmax + 1))
         else []))
  /\ (built (trace (run L Test_efp env)) =
        repeat (ArchLinear "lda") test_efp.dmax
      /\ fit_inputs (trace (run L Test_efp env)) =
           map (fun d => Tab (train_of (fst
                  (efp_split (cepc_load L) test_efp.num_data test_efp.dmax
                     test_efp.measure test_efp.beta test_efp.test_frac d))))
               (range 1 (test_efp.dmax + 1))
      /\ predict_inputs (trace (run L Test_efp env)) =
           map (fun d => Tab (test_of (fst
                  (efp_split (cepc_load L) test_efp.num_data test_efp.dmax
                     test_efp.measure test_efp.beta test_efp.test_frac d))))
               (range 1 (test_efp.dmax + 1))
      /\ roc_calls (trace (run L Test_efp env)) =
           (if has_sklearn env
            then map (efp_scores (cepc_load L) test_efp.num_data
                        test_efp.dmax test_efp.measure test_efp.beta
                        test_efp.test_frac)
                     (range 1 (test_efp.dmax + 1))
            else [])).
Proof.
  destruct env as [[|] [|]]; repeat split; reflexivity.
Qed.

(** X6.  In [test_cnn.py] the CNN is fitted on the preprocessed train
    part and predicts on the preprocessed test part of the one split, and
    its curve is computed on the test labels.  The jet-mass and
    multiplicity curves are computed only when both optional imports
    succeeded, on the labels of all loaded jets and the negated
    observable. *)
Theorem cnn_curves_and_their_data (L : Lib) (env : environment) :
  fit_inputs (trace (run L Test_cnn env)) = [Pix (train_of (cnn_preprocessed L))]
  /\ predict_inputs (trace (run L Test_cnn env)) =
       [Pix (test_of (cnn_preprocessed L))]
  /\ roc_calls (trace (run L Test_cnn env)) =
       (if has_sklearn env
        then cnn_scores L
             :: (if has_matplotlib env then cnn_comparison_scores L else [])
        else []).
Proof.
  destruct env as [[|] [|]]; repeat split; reflexivity.
Qed.

(** X7.  In every run of every script, [roc_auc_score] is called on
    exactly the labels and scores of the curves of the trained models, in
    the same order: the arguments of its calls are the arguments of the
    first [roc_curve] calls, one per model. *)
Theorem auc_on_the_curve_arguments (L : Lib) (s : script) (env : environment) :
  auc_calls (trace (run L s env)) =
    firstn (models_trained s) (roc_calls (trace (run L s env)))
  /\ List.length (auc_calls (trace (run L s env))) =
       (if has_sklearn env then models_trained s else 0%nat).
Proof.
  each_run s env; split; reflexivity.
Qed.

(** X8.  A script prints the scikit-learn message exactly when that
    import failed, and the matplotlib message exactly when that import
    failed. *)
Theorem import_messages (L : Lib) (s : script) (env : environment) :
  (In ([Str sklearn_message], nl) (printed (trace (run L s env)))
     <-> has_sklearn env = false)
  /\ (In ([Str matplotlib_message], nl) (printed (trace (run L s env)))
     <-> has_matplotlib env = false).
Proof.
  each_run s env; cbn [has_sklearn has_matplotlib];
    (split; (split; intro H));
    try reflexivity; try discriminate H;
    try (vm_compute; find_in_list);
    try (vm_compute in H; none_in_list H).
Qed.

(** X9.  A run shows the figure exactly when it saves it.
    [dnn_example.py], [efp_example.py] and [test_cnn.py] save the image and
    then show the figure; [test_efp.py] shows the figure and then saves
    the image. *)
Theorem save_and_show_order (L : Lib) (s : script) (env : environment) :
  (files_written (trace (run L s env)) = [] ->
   figure_actions (trace (run L s env)) = [])
  /\ (files_written (trace (run L s env)) <> [] ->
      figure_actions (trace (run L s env)) =
        match s with
        | Test_efp => [Shown; Saved (image_name s)]
        | _ => [Saved (image_name s); Shown]
        end).
Proof.
  each_run s env; split; intro H;
    try reflexivity;
    try (exfalso; apply H; reflexivity);
    try (vm_compute in H; discriminate H).
Qed.

Lemma save_and_show_order_witness :
  figure_actions (trace (run toy Test_efp full_env)) =
    [Shown; Saved "cepc.jpg"].
Proof.
  apply (proj2 (save_and_show_order toy Test_efp full_env)).
  vm_compute. discriminate.
Defined.

(* ================================================================= *)
(** ** Further properties: the array operations of the scripts *)

Lemma mask_length_le (L : Lib) (x : jet L) :
  (List.length (mask x) <= List.length x)%nat.
Proof.
  induction x as [|p x IH]; simpl.
  - apply Nat.le_refl.
  - destruct (gt_zero L (pt p)); simpl; lia.
Qed.

(** X10.  Masking a jet ([x[x[:,0] > 0]]) is a projection: masking twice
    is masking once and the result is never longer than the jet; it
    returns the jet unchanged exactly when every row has a positive first
    column, and an empty jet exactly when no row has one. *)
Theorem mask_is_projection (L : Lib) (x : jet L) :
  mask (mask x) = mask x
  /\ (List.length (mask x) <= List.length x)%nat
  /\ (mask x = x <-> forallb (fun p => gt_zero L (pt p)) x = true)
  /\ (mask x = [] <-> forallb (fun p => negb (gt_zero L (pt p))) x = true).
Proof.
  split; [|split; [|split]].
  - induction x as [|p x IH]; simpl.
    + reflexivity.
    + destruct (gt_zero L (pt p)) eqn:Hp; simpl.
      * rewrite Hp, IH. reflexivity.
      * exact IH.
  - apply mask_length_le.
  - induction x as [|p x IH]; simpl.
    + split; reflexivity.
    + destruct (gt_zero L (pt p)) eqn:Hp; simpl.
      * split; intro H.
        -- injection H as H. apply IH. exact H.
        -- f_equal. apply IH. exact H.
      * split; intro H.
        -- pose proof (mask_length_le L x) as Hle.
           apply (f_equal (@List.length _)) in H.
           unfold mask in Hle, H. simpl in H. lia.
        -- discriminate H.
  - induction x as [|p x IH]; simpl.
    + split; reflexivity.
    + destruct (gt_zero L (pt p)) eqn:Hp; simpl.
      * split; intro H; discriminate H.
      * exact IH.
Qed.

(** X11.  On a jet whose first column is non-zero exactly where it is
    positive (no negative entries), the multiplicity [test_cnn.py] counts
    with [np.count_nonzero(x[:,0])] is the number of rows the EFP scripts
    keep when they mask the jet. *)
Theorem multiplicity_counts_masked_rows (L : Lib) (x : jet L) :
  (forall p, In p x -> nonzero L (pt p) = gt_zero L (pt p)) ->
  count_nonzero_pt x = of_count L (List.length (mask x)).
Proof.
  intro Hsame. unfold count_nonzero_pt, mask. f_equal. f_equal.
  apply filter_ext_in. exact Hsame.
Qed.

Lemma multiplicity_counts_masked_rows_witness :
  @count_nonzero_pt toy [Particle 3%Z [1%Z]; Particle 0%Z [0%Z]] =
  of_count toy
    (List.length (@mask toy [Particle 3%Z [1%Z]; Particle 0%Z [0%Z]])).
Proof.
  apply (multiplicity_counts_masked_rows toy
           [Particle 3%Z [1%Z]; Particle 0%Z [0%Z]]).
  intros p Hp. simpl in Hp.
  destruct Hp as [Hp | [Hp | []]]; subst p; reflexivity.
Defined.

(** X12.  In [dnn_example.py], if every row of the loaded table has at
    least [num_nsubs[i]] columns, the table handed to [data_split] in pass
    [i] has as many rows as the loaded table and exactly [num_nsubs[i]]
    columns in every row. *)
Theorem nsub_sweep_input_width (L : Lib) (env : environment) (i k : nat) :
  nth_error dnn_example.num_nsubs i = Some k ->
  (forall row, In row (fst (qg_nsubs_load L dnn_example.num_data)) ->
               (k <= List.length row)%nat) ->
  exists m,
    nth_error (split_inputs (trace (run L Dnn_example env))) i = Some (Tab m)
    /\ List.length m =
       List.length (fst (qg_nsubs_load L dnn_example.num_data))
    /\ (forall row, In row m -> List.length row = k).
Proof.
  intros Hi Hwide.
  exists (colprefix k (fst (qg_nsubs_load L dnn_example.num_data))).
  split; [|split].
  - assert (Hsplit : split_inputs (trace (run L Dnn_example env)) =
                     map (fun k => Tab (colprefix k
                            (fst (qg_nsubs_load L dnn_example.num_data))))
                         dnn_example.num_nsubs).
    { destruct env as [[|] [|]]; reflexivity. }
    rewrite Hsplit, nth_error_map, Hi. reflexivity.
  - unfold colprefix. apply length_map.
  - intros row Hrow. unfold colprefix in Hrow. apply in_map_iff in Hrow.
    destruct Hrow as [row0 [Hcut Hrow0]]. subst row.
    apply firstn_length_le. apply Hwide. exact Hrow0.
Qed.

Lemma nsub_sweep_input_width_witness :
  exists m,
    nth_error (split_inputs (trace (run toy Dnn_example full_env))) 1 =
      Some (Tab m)
    /\ List.length m =
       List.length (fst (qg_nsubs_load toy dnn_example.num_data))
    /\ (forall row, In row m -> List.length row = 2%nat).
Proof.
  apply (nsub_sweep_input_width toy full_env 1 2).
  - reflexivity.
  - intros row Hrow. simpl in Hrow.
    destruct Hrow as [Hrow | [Hrow | []]]; subst row; simpl; lia.
Defined.
